(** * rand_custom.cpp: PCG32 construction and seed/stream length validation

    A shallow embedding of [src/rand_custom.cpp] (scran).  The file has two
    functions:

    - [create_pcg32], which converts an R seed object to a [uint64_t] and
      builds a [pcg32] engine from it and a stream index;
    - [check_pcg_vectors], which compares the lengths of a list of seeds
      and of an integer vector of streams with an expected count [N] and
      throws a [std::runtime_error] on the first mismatch.

    R objects live in R's heap and the Rcpp wrappers ([Rcpp::List],
    [Rcpp::IntegerVector]) are handles that share them, so the heap is
    modelled as a store that every C++ computation threads through,
    together with the exception it may raise. *)

From stdpp Require Import gmap strings list fin_maps.

(** ** The R heap *)

Module R.

(** A [SEXP] is a pointer to an R object. *)
Definition SEXP : Type := positive.

(** The R objects this file handles: integer vectors and generic vectors
    (lists), whose elements are again pointers. *)
Inductive SEXPREC : Type :=
| INTSXP (elts : list Z)
| VECSXP (elts : list SEXP).

(** The heap maps the allocated pointers to their objects.  A pointer
    the map does not hold reads as [R_NilValue]. *)
Abbreviation heap := (gmap SEXP SEXPREC).

(** [Rf_xlength]: the length of a vector, and 0 for [R_NilValue]. *)
Definition Rf_xlength (h : heap) (s : SEXP) : Z :=
  match h !! s with
  | Some (INTSXP elts) => Z.of_nat (length elts)
  | Some (VECSXP elts) => Z.of_nat (length elts)
  | None => 0
  end.

(** The largest length of an R vector on an LP64 platform
    ([R_XLEN_T_MAX], 2^52). *)
Definition R_XLEN_T_MAX : Z := 4503599627370496.

End R.

(** ** C++ computations: state and exceptions *)

Module Cxx.
Import R.

(** The exceptions that cross this file.  [runtime_error] is
    [std::runtime_error] with its [what()] string. *)
Inductive exception : Type :=
| runtime_error (what : string)
| SeedConversionError (what : string).

(** How a call ends: it returns a value or it throws. *)
Inductive outcome (A : Type) : Type :=
| Returned (a : A)
| Thrown (e : exception).
Arguments Returned {A} a.
Arguments Thrown {A} e.

(** A computation runs on a heap and leaves a heap, also when it
    throws. *)
Definition M (A : Type) : Type := heap → outcome A * heap.

Definition ret {A} (a : A) : M A := λ h, (Returned a, h).

Definition bind {A B} (c : M A) (k : A → M B) : M B :=
  λ h, match c h with
       | (Returned a, h') => k a h'
       | (Thrown e, h') => (Thrown e, h')
       end.

Definition throw {A} (e : exception) : M A := λ h, (Thrown e, h).

(** Reading the heap. *)
Definition gets {A} (f : heap → A) : M A := λ h, (Returned (f h), h).

#[global] Instance M_ret : MRet M := @ret.
#[global] Instance M_bind : MBind M := λ A B k c, bind c k.

(** [size_t] is 64 bits wide; [static_cast<size_t>] of a signed value
    wraps modulo 2^64. *)
Definition SIZE_WIDTH : Z := 64.
Definition static_cast_size_t (z : Z) : Z := z `mod` 2 ^ SIZE_WIDTH.

(** [std::stringstream]: the characters inserted so far; [ss << s]
    appends and [str] reads them back. *)
Definition stringstream : Type := string.
Definition stringstream_new : stringstream := "".
Definition insert_str (ss : stringstream) (s : string) : stringstream :=
  ss +:+ s.
Definition str (ss : stringstream) : string := ss.

End Cxx.

Notation "ss << s" := (Cxx.insert_str ss s) (at level 50, left associativity).

(** ** Rcpp vectors *)

Module Rcpp.
Import R Cxx.

(** [Rcpp::List] and [Rcpp::IntegerVector] wrap a pointer to the R
    object; copies of a wrapper share the object. *)
Abbreviation List := SEXP.
Abbreviation IntegerVector := SEXP.

(** [Vector::size()] is [Rf_xlength] of the wrapped object, an
    [R_xlen_t]. *)
Definition size (v : SEXP) : M Z := gets (λ h, Rf_xlength h v).

(** The invariant of the wrappers: the pointer is live, the object has
    the wrapper's type and its length is a valid [R_xlen_t]. *)
Definition holds_List (h : heap) (v : List) (elts : list SEXP) : Prop :=
  h !! v = Some (VECSXP elts) ∧ (Z.of_nat (length elts) ≤ R_XLEN_T_MAX)%Z.

Definition holds_IntegerVector (h : heap) (v : IntegerVector)
    (elts : list Z) : Prop :=
  h !! v = Some (INTSXP elts) ∧ (Z.of_nat (length elts) ≤ R_XLEN_T_MAX)%Z.

End Rcpp.

Import R Cxx.

(** ** [create_pcg32] *)

Section create_pcg32.

(** [convert_seed.h] and the [pcg32] engine of [pcg_random.hpp] are not
    part of this file: the converter and the engine's two-argument
    constructor are parameters, both computations in their own
    right. *)
Context {pcg32_t : Type}.
Variable convert_seed : SEXP → M Z.
Variable pcg32 : Z → Z → M pcg32_t.

Definition create_pcg32 (seed : SEXP) (stream : Z) : M pcg32_t :=
  s ← convert_seed seed;
  pcg32 s stream.

End create_pcg32.

(** ** [check_pcg_vectors] *)

Definition check_pcg_vectors (seeds : Rcpp.List)
    (streams : Rcpp.IntegerVector) (N : Z) (msg : string) : M unit :=
  n_seeds ← Rcpp.size seeds;
  (if negb (static_cast_size_t n_seeds =? N)%Z then
     let err := stringstream_new << "number of " << msg
                  << " and seeds should be the same" in
     throw (runtime_error (str err))
   else mret tt);;
  n_streams ← Rcpp.size streams;
  (if negb (static_cast_size_t n_streams =? N)%Z then
     let err := stringstream_new << "number of " << msg
                  << " and streams should be the same" in
     throw (runtime_error (str err))
   else mret tt);;
  mret tt.

(** The two messages, with the label in place. *)
Definition seeds_message (msg : string) : string :=
  "number of " +:+ msg +:+ " and seeds should be the same".

Definition streams_message (msg : string) : string :=
  "number of " +:+ msg +:+ " and streams should be the same".

(** ** Instances of the parameters and sample heaps *)

(** Modelled from the spec: the seed converter of [convert_seed.h], which
    is not under src/.  It "accepts a host-provided scalar or vector
    representation and returns an unsigned 64-bit integer, failing on
    non-numeric or out-of-range input": an integer vector is read as
    32-bit words, most significant first, and anything else is refused. *)
Definition convert_seed_model (seed : SEXP) : M Z := λ h,
  match h !! seed with
  | Some (INTSXP words) =>
      let v := fold_left (λ acc w, acc * 2 ^ 32 + w `mod` 2 ^ 32)%Z words 0%Z in
      if (v <? 2 ^ 64)%Z then (Returned v, h)
      else (Thrown (SeedConversionError "seed is out of range"), h)
  | _ => (Thrown (SeedConversionError "seed is not numeric"), h)
  end.

(** Modelled from the spec: the [pcg32] engine of [pcg_random.hpp], which
    is not under src/.  A handle is "initialized with the converted seed
    and the given stream index" and is recorded by these two values. *)
Record pcg32_handle : Type := pcg32_init { init_seed : Z; init_stream : Z }.

Definition pcg32_model (seed stream : Z) : M pcg32_handle :=
  mret (pcg32_init seed stream).

(** Three seed objects, and the lists and stream vectors of the sample
    calls. *)
Definition seed_objects : heap :=
  <[ 10%positive := INTSXP [1%Z] ]>
  (<[ 11%positive := INTSXP [2%Z; 5%Z] ]>
  (<[ 12%positive := INTSXP [3%Z] ]> ∅)).

Definition heap_of (seeds : list SEXP) (streams : list Z) : heap :=
  <[ 1%positive := VECSXP seeds ]>
  (<[ 2%positive := INTSXP streams ]> seed_objects).

Definition seeds_ptr : Rcpp.List := 1%positive.
Definition streams_ptr : Rcpp.IntegerVector := 2%positive.

(** No seeds and no streams. *)
Definition heap_empty : heap := heap_of [] [].

(** Two seeds for three streams. *)
Definition heap_chains : heap := heap_of [10; 11]%positive [0; 1; 2]%Z.

(** Three seeds for two streams. *)
Definition heap_workers : heap := heap_of [10; 11; 12]%positive [0; 1]%Z.

(** One seed and two streams. *)
Definition heap_cells : heap := heap_of [10]%positive [0; 1]%Z.

(** Two seeds and two streams, and the same shape with other seed
    objects and other stream indices. *)
Definition heap_pair : heap := heap_of [10; 11]%positive [0; 1]%Z.
Definition heap_pair' : heap := heap_of [12; 12]%positive [7; -4]%Z.

(** * Properties *)

(** ** The monad *)

Lemma bind_ret {A B} (a : A) (k : A → M B) h : (mret a ≫= k) h = k a h.
Proof. reflexivity. Qed.

Lemma bind_throw {A B} (e : exception) (k : A → M B) h :
  (throw e ≫= k) h = (Thrown e, h).
Proof. reflexivity. Qed.

Lemma bind_returned {A B} (c : M A) (k : A → M B) h a h' :
  c h = (Returned a, h') → (c ≫= k) h = k a h'.
Proof.
  intros Hc. unfold mbind, M_bind, bind. now rewrite Hc.
Qed.

Lemma bind_thrown {A B} (c : M A) (k : A → M B) h e h' :
  c h = (Thrown e, h') → (c ≫= k) h = (Thrown e, h').
Proof.
  intros Hc. unfold mbind, M_bind, bind. now rewrite Hc.
Qed.

(** ** Sizes *)

Lemma static_cast_size_t_small z :
  (0 ≤ z ≤ R_XLEN_T_MAX)%Z → static_cast_size_t z = z.
Proof.
  intros Hz. unfold static_cast_size_t, SIZE_WIDTH.
  apply Z.mod_small. unfold R_XLEN_T_MAX in Hz. lia.
Qed.

Lemma xlength_List h v elts :
  Rcpp.holds_List h v elts → Rf_xlength h v = Z.of_nat (length elts).
Proof. intros [Hv _]. unfold Rf_xlength. now rewrite Hv. Qed.

Lemma xlength_IntegerVector h v elts :
  Rcpp.holds_IntegerVector h v elts → Rf_xlength h v = Z.of_nat (length elts).
Proof. intros [Hv _]. unfold Rf_xlength. now rewrite Hv. Qed.

Lemma size_List h v elts :
  Rcpp.holds_List h v elts →
  static_cast_size_t (Rf_xlength h v) = Z.of_nat (length elts).
Proof.
  intros Hv. rewrite (xlength_List _ _ _ Hv).
  destruct Hv as [_ Hmax]. apply static_cast_size_t_small. lia.
Qed.

Lemma size_IntegerVector h v elts :
  Rcpp.holds_IntegerVector h v elts →
  static_cast_size_t (Rf_xlength h v) = Z.of_nat (length elts).
Proof.
  intros Hv. rewrite (xlength_IntegerVector _ _ _ Hv).
  destruct Hv as [_ Hmax]. apply static_cast_size_t_small. lia.
Qed.

(** ** The messages *)

Lemma seeds_stream_str msg :
  str (stringstream_new << "number of " << msg
         << " and seeds should be the same") = seeds_message msg.
Proof. reflexivity. Qed.

Lemma streams_stream_str msg :
  str (stringstream_new << "number of " << msg
         << " and streams should be the same") = streams_message msg.
Proof. reflexivity. Qed.

(** ** [check_pcg_vectors] as a decision on the two sizes *)

Lemma check_pcg_vectors_cases seeds streams N msg h :
  check_pcg_vectors seeds streams N msg h =
  if (static_cast_size_t (Rf_xlength h seeds) =? N)%Z then
    if (static_cast_size_t (Rf_xlength h streams) =? N)%Z then
      (Returned tt, h)
    else (Thrown (runtime_error (streams_message msg)), h)
  else (Thrown (runtime_error (seeds_message msg)), h).
Proof.
  unfold check_pcg_vectors, Rcpp.size, gets.
  unfold mbind, M_bind, bind, mret, M_ret, ret, throw.
  destruct (static_cast_size_t (Rf_xlength h seeds) =? N)%Z; simpl.
  - destruct (static_cast_size_t (Rf_xlength h streams) =? N)%Z; simpl.
    + reflexivity.
    + now rewrite streams_stream_str.
  - now rewrite seeds_stream_str.
Qed.

Lemma seeds_checked_first seeds streams N msg h :
  static_cast_size_t (Rf_xlength h seeds) ≠ N →
  check_pcg_vectors seeds streams N msg h =
  (Thrown (runtime_error (seeds_message msg)), h).
Proof.
  intros Hne. rewrite check_pcg_vectors_cases.
  now apply Z.eqb_neq in Hne as ->.
Qed.

(** ** The claims on [check_pcg_vectors] *)

(** C1: when the list of seeds and the vector of streams both have
    length [N], [check_pcg_vectors] returns normally, whatever the label;
    no exception is thrown.  The empty case [N = 0] is an instance. *)
Theorem check_pcg_vectors_equal_lengths h seeds streams N msg ss ts :
  Rcpp.holds_List h seeds ss →
  Rcpp.holds_IntegerVector h streams ts →
  Z.of_nat (length ss) = N →
  Z.of_nat (length ts) = N →
  check_pcg_vectors seeds streams N msg h = (Returned tt, h).
Proof.
  intros Hseeds Hstreams Hss Hts. rewrite check_pcg_vectors_cases.
  rewrite (size_List _ _ _ Hseeds), (size_IntegerVector _ _ _ Hstreams).
  rewrite Hss, Hts, Z.eqb_refl. reflexivity.
Qed.

(** The empty case: no seeds, no streams, [N = 0]. *)
Lemma check_pcg_vectors_equal_lengths_empty :
  Rcpp.holds_List heap_empty seeds_ptr [] ∧
  Rcpp.holds_IntegerVector heap_empty streams_ptr [] ∧
  Z.of_nat (length (@nil SEXP)) = 0%Z ∧
  Z.of_nat (length (@nil Z)) = 0%Z ∧
  check_pcg_vectors seeds_ptr streams_ptr 0 "cells" heap_empty
  = (Returned tt, heap_empty).
Proof.
  assert (Hs : Rcpp.holds_List heap_empty seeds_ptr []).
  { split; [reflexivity | unfold R_XLEN_T_MAX; simpl; lia]. }
  assert (Ht : Rcpp.holds_IntegerVector heap_empty streams_ptr []).
  { split; [reflexivity | unfold R_XLEN_T_MAX; simpl; lia]. }
  repeat (split; [first [exact Hs | exact Ht | reflexivity] |]).
  exact (check_pcg_vectors_equal_lengths
           heap_empty seeds_ptr streams_ptr 0 "cells" [] [] Hs Ht
           eq_refl eq_refl).
Defined.

(** C2: when the length of the list of seeds differs from [N],
    [check_pcg_vectors] throws a [runtime_error] whose message is
    "number of <msg> and seeds should be the same"; the streams argument
    is arbitrary. *)
Theorem check_pcg_vectors_seeds_mismatch h seeds streams N msg ss :
  Rcpp.holds_List h seeds ss →
  Z.of_nat (length ss) ≠ N →
  check_pcg_vectors seeds streams N msg h =
  (Thrown (runtime_error
     ("number of " +:+ msg +:+ " and seeds should be the same")), h).
Proof.
  intros Hseeds Hss. apply seeds_checked_first.
  now rewrite (size_List _ _ _ Hseeds).
Qed.

(** Two seeds and three streams for [N = 3], label "chains". *)
Lemma check_pcg_vectors_seeds_mismatch_chains :
  Rcpp.holds_List heap_chains seeds_ptr [10; 11]%positive ∧
  Z.of_nat (length [10; 11]%positive) ≠ 3%Z ∧
  check_pcg_vectors seeds_ptr streams_ptr 3 "chains" heap_chains =
  (Thrown (runtime_error "number of chains and seeds should be the same"),
   heap_chains).
Proof.
  set (h := heap_chains).
  assert (Hs : Rcpp.holds_List h seeds_ptr [10; 11]%positive).
  { split; [reflexivity | unfold R_XLEN_T_MAX; simpl; lia]. }
  assert (Hne : Z.of_nat (length [10; 11]%positive) ≠ 3%Z) by (simpl; lia).
  split; [exact Hs | split; [exact Hne |]].
  exact (check_pcg_vectors_seeds_mismatch
           h seeds_ptr streams_ptr 3 "chains" [10; 11]%positive Hs Hne).
Defined.

(** C3: when the list of seeds has length [N] and the length of the
    vector of streams differs from [N], [check_pcg_vectors] throws a
    [runtime_error] whose message is
    "number of <msg> and streams should be the same". *)
Theorem check_pcg_vectors_streams_mismatch h seeds streams N msg ss ts :
  Rcpp.holds_List h seeds ss →
  Rcpp.holds_IntegerVector h streams ts →
  Z.of_nat (length ss) = N →
  Z.of_nat (length ts) ≠ N →
  check_pcg_vectors seeds streams N msg h =
  (Thrown (runtime_error
     ("number of " +:+ msg +:+ " and streams should be the same")), h).
Proof.
  intros Hseeds Hstreams Hss Hts. rewrite check_pcg_vectors_cases.
  rewrite (size_List _ _ _ Hseeds), (size_IntegerVector _ _ _ Hstreams).
  rewrite Hss, Z.eqb_refl. now apply Z.eqb_neq in Hts as ->.
Qed.

(** Three seeds and two streams for [N = 3], label "workers". *)
Lemma check_pcg_vectors_streams_mismatch_workers :
  Rcpp.holds_List heap_workers seeds_ptr [10; 11; 12]%positive ∧
  Rcpp.holds_IntegerVector heap_workers streams_ptr [0; 1]%Z ∧
  Z.of_nat (length [10; 11; 12]%positive) = 3%Z ∧
  Z.of_nat (length [0; 1]%Z) ≠ 3%Z ∧
  check_pcg_vectors seeds_ptr streams_ptr 3 "workers" heap_workers =
  (Thrown (runtime_error "number of workers and streams should be the same"),
   heap_workers).
Proof.
  set (h := heap_workers).
  assert (Hs : Rcpp.holds_List h seeds_ptr [10; 11; 12]%positive).
  { split; [reflexivity | unfold R_XLEN_T_MAX; simpl; lia]. }
  assert (Ht : Rcpp.holds_IntegerVector h streams_ptr [0; 1]%Z).
  { split; [reflexivity | unfold R_XLEN_T_MAX; simpl; lia]. }
  assert (Hne : Z.of_nat (length [0; 1]%Z) ≠ 3%Z) by (simpl; lia).
  repeat (split; [first [exact Hs | exact Ht | exact Hne | reflexivity] |]).
  exact (check_pcg_vectors_streams_mismatch
           h seeds_ptr streams_ptr 3 "workers" _ _ Hs Ht eq_refl Hne).
Defined.

(** C4: when both lengths differ from [N], the error is the one on the
    seeds.  The test on the seeds comes first and its throw ends the
    call: whichever streams vector is passed in its place, valid or not,
    the result is the same, so the test on the streams has no part in
    it. *)
Theorem check_pcg_vectors_both_mismatch h seeds streams N msg ss ts :
  Rcpp.holds_List h seeds ss →
  Rcpp.holds_IntegerVector h streams ts →
  Z.of_nat (length ss) ≠ N →
  Z.of_nat (length ts) ≠ N →
  check_pcg_vectors seeds streams N msg h =
    (Thrown (runtime_error (seeds_message msg)), h) ∧
  ∀ streams' : Rcpp.IntegerVector,
    check_pcg_vectors seeds streams' N msg h =
    check_pcg_vectors seeds streams N msg h.
Proof.
  intros Hseeds _ Hss _.
  assert (Hcast : static_cast_size_t (Rf_xlength h seeds) ≠ N)
    by now rewrite (size_List _ _ _ Hseeds).
  split; [| intros streams'];
    now rewrite !(seeds_checked_first _ _ _ _ _ Hcast).
Qed.

(** One seed and two streams for [N = 3]. *)
Lemma check_pcg_vectors_both_mismatch_sample :
  Rcpp.holds_List heap_cells seeds_ptr [10]%positive ∧
  Rcpp.holds_IntegerVector heap_cells streams_ptr [0; 1]%Z ∧
  Z.of_nat (length [10]%positive) ≠ 3%Z ∧
  Z.of_nat (length [0; 1]%Z) ≠ 3%Z ∧
  check_pcg_vectors seeds_ptr streams_ptr 3 "cells" heap_cells =
  (Thrown (runtime_error "number of cells and seeds should be the same"),
   heap_cells).
Proof.
  set (h := heap_cells).
  assert (Hs : Rcpp.holds_List h seeds_ptr [10]%positive).
  { split; [reflexivity | unfold R_XLEN_T_MAX; simpl; lia]. }
  assert (Ht : Rcpp.holds_IntegerVector h streams_ptr [0; 1]%Z).
  { split; [reflexivity | unfold R_XLEN_T_MAX; simpl; lia]. }
  assert (Hn1 : Z.of_nat (length [10]%positive) ≠ 3%Z) by (simpl; lia).
  assert (Hn2 : Z.of_nat (length [0; 1]%Z) ≠ 3%Z) by (simpl; lia).
  repeat (split; [first [exact Hs | exact Ht | exact Hn1 | exact Hn2] |]).
  exact (proj1 (check_pcg_vectors_both_mismatch
                  h seeds_ptr streams_ptr 3 "cells" _ _ Hs Ht Hn1 Hn2)).
Defined.

(** C5: a call of [check_pcg_vectors] ends in one of three ways and no
    other: it returns (with no value), it throws the [runtime_error] on
    the seeds, or it throws the [runtime_error] on the streams. *)
Theorem check_pcg_vectors_outcomes seeds streams N msg h :
  check_pcg_vectors seeds streams N msg h = (Returned tt, h) ∨
  check_pcg_vectors seeds streams N msg h =
    (Thrown (runtime_error
       ("number of " +:+ msg +:+ " and seeds should be the same")), h) ∨
  check_pcg_vectors seeds streams N msg h =
    (Thrown (runtime_error
       ("number of " +:+ msg +:+ " and streams should be the same")), h).
Proof.
  rewrite check_pcg_vectors_cases.
  destruct (static_cast_size_t (Rf_xlength h seeds) =? N)%Z;
    [destruct (static_cast_size_t (Rf_xlength h streams) =? N)%Z |]; auto.
Qed.

(** C8: [check_pcg_vectors] changes nothing.  The heap it leaves is the
    heap it was given, whether it returns or throws, so the objects
    behind the seeds and the streams are as before; [N] and the label
    are passed by value and by pointer to constant characters.  No state
    is kept: there is none but the heap. *)
Theorem check_pcg_vectors_frame seeds streams N msg h :
  (check_pcg_vectors seeds streams N msg h).2 = h ∧
  (check_pcg_vectors seeds streams N msg h).2 !! seeds = h !! seeds ∧
  (check_pcg_vectors seeds streams N msg h).2 !! streams = h !! streams.
Proof.
  assert (Hh : (check_pcg_vectors seeds streams N msg h).2 = h).
  { rewrite check_pcg_vectors_cases.
    destruct (static_cast_size_t (Rf_xlength h seeds) =? N)%Z;
      [destruct (static_cast_size_t (Rf_xlength h streams) =? N)%Z |];
      reflexivity. }
  now rewrite Hh.
Qed.

(** C9: [check_pcg_vectors] is deterministic and keeps no hidden state.
    Its result is a function of its arguments and of the heap, and a
    first call leaves nothing behind that a second call could see: the
    same call made again, after the first has returned or thrown, ends
    the same way. *)
Theorem check_pcg_vectors_deterministic seeds streams N msg h :
  check_pcg_vectors seeds streams N msg
    (check_pcg_vectors seeds streams N msg h).2
  = check_pcg_vectors seeds streams N msg h.
Proof.
  set (r := check_pcg_vectors seeds streams N msg h).
  assert (Hh : r.2 = h).
  { subst r. rewrite check_pcg_vectors_cases.
    destruct (static_cast_size_t (Rf_xlength h seeds) =? N)%Z;
      [destruct (static_cast_size_t (Rf_xlength h streams) =? N)%Z |];
      reflexivity. }
  now rewrite Hh.
Qed.

(** C10: the outcome of [check_pcg_vectors] depends on the two lengths,
    on [N] and on the label only.  Two calls with the same [N] and label
    on lists of seeds of equal length and vectors of streams of equal
    length end the same way, whatever the elements are and wherever the
    objects lie in the heap. *)
Theorem check_pcg_vectors_lengths_only
    h1 h2 seeds1 seeds2 streams1 streams2 N msg ss1 ss2 ts1 ts2 :
  h1 !! seeds1 = Some (VECSXP ss1) →
  h2 !! seeds2 = Some (VECSXP ss2) →
  h1 !! streams1 = Some (INTSXP ts1) →
  h2 !! streams2 = Some (INTSXP ts2) →
  length ss1 = length ss2 →
  length ts1 = length ts2 →
  (check_pcg_vectors seeds1 streams1 N msg h1).1 =
  (check_pcg_vectors seeds2 streams2 N msg h2).1.
Proof.
  intros Hs1 Hs2 Ht1 Ht2 Hss Hts. rewrite !check_pcg_vectors_cases.
  unfold Rf_xlength. rewrite Hs1, Hs2, Ht1, Ht2, Hss, Hts.
  destruct (static_cast_size_t (Z.of_nat (length ss2)) =? N)%Z;
    [destruct (static_cast_size_t (Z.of_nat (length ts2)) =? N)%Z |];
    reflexivity.
Qed.

(** Two heaps whose lists and vectors agree in length only. *)
Lemma check_pcg_vectors_lengths_only_sample :
  heap_pair !! seeds_ptr = Some (VECSXP [10; 11]%positive) ∧
  heap_pair' !! seeds_ptr = Some (VECSXP [12; 12]%positive) ∧
  heap_pair !! streams_ptr = Some (INTSXP [0; 1]%Z) ∧
  heap_pair' !! streams_ptr = Some (INTSXP [7; -4]%Z) ∧
  (check_pcg_vectors seeds_ptr streams_ptr 2 "cells" heap_pair).1 =
  (check_pcg_vectors seeds_ptr streams_ptr 2 "cells" heap_pair').1.
Proof.
  repeat (split; [reflexivity |]).
  exact (check_pcg_vectors_lengths_only
           heap_pair heap_pair' seeds_ptr seeds_ptr streams_ptr streams_ptr
           2 "cells" [10; 11]%positive [12; 12]%positive [0; 1]%Z [7; -4]%Z
           eq_refl eq_refl eq_refl eq_refl eq_refl eq_refl).
Defined.

(** ** The claims on [create_pcg32] *)

(** When the conversion of the seed returns [s], [create_pcg32] is the
    engine's constructor run on [s] and on the stream index as they are,
    in the heap the conversion left, whatever the constructor does. *)
Lemma create_pcg32_after_conversion {pcg32_t : Type}
    (convert_seed : SEXP → M Z) (pcg32 : Z → Z → M pcg32_t)
    (seed : SEXP) (stream : Z) (h h' : heap) (s : Z) :
  convert_seed seed h = (Returned s, h') →
  create_pcg32 convert_seed pcg32 seed stream h = pcg32 s stream h'.
Proof.
  intros Hconv. unfold create_pcg32.
  exact (bind_returned (convert_seed seed) (λ s, pcg32 s stream) h s h' Hconv).
Qed.

(** C6: let the engine's constructor do what its specification says:
    on a seed and a stream it returns the engine [init] prescribes for
    these two values, and it leaves the heap alone.  Then, when the
    conversion of the seed returns [s], [create_pcg32] returns a handle,
    and that handle is [init s stream]: the engine initialised with the
    converted seed and the given stream index as they are.  The heap
    after the call is the heap the conversion left, so the call has no
    effect of its own, and where the conversion writes nothing the heap
    is as before the call. *)
Theorem create_pcg32_converted {pcg32_t : Type}
    (convert_seed : SEXP → M Z) (pcg32 : Z → Z → M pcg32_t)
    (init : Z → Z → pcg32_t)
    (seed : SEXP) (stream : Z) (h h' : heap) (s : Z) :
  (∀ s0 st h0, pcg32 s0 st h0 = (Returned (init s0 st), h0)) →
  convert_seed seed h = (Returned s, h') →
  create_pcg32 convert_seed pcg32 seed stream h
    = (Returned (init s stream), h') ∧
  (h' = h →
   (create_pcg32 convert_seed pcg32 seed stream h).2 = h).
Proof.
  intros Hctor Hconv.
  assert (Hcreate : create_pcg32 convert_seed pcg32 seed stream h
                    = (Returned (init s stream), h')).
  { rewrite (create_pcg32_after_conversion _ _ _ _ _ _ _ Hconv).
    apply Hctor. }
  split; [exact Hcreate |].
  intros Hpure. rewrite Hcreate. exact Hpure.
Qed.

(** The seed words 2 and 5 make 2 * 2^32 + 5; the handle holds this
    seed and the stream 7, and the heap is as before. *)
Lemma create_pcg32_converted_sample :
  (∀ s0 st h0,
     pcg32_model s0 st h0 = (Returned (pcg32_init s0 st), h0)) ∧
  convert_seed_model 11%positive seed_objects
    = (Returned 8589934597%Z, seed_objects) ∧
  create_pcg32 convert_seed_model pcg32_model 11%positive 7 seed_objects
    = (Returned {| init_seed := 8589934597; init_stream := 7 |},
       seed_objects) ∧
  (create_pcg32 convert_seed_model pcg32_model 11%positive 7
     seed_objects).2 = seed_objects.
Proof.
  assert (Hctor : ∀ s0 st h0,
            pcg32_model s0 st h0 = (Returned (pcg32_init s0 st), h0))
    by (intros; reflexivity).
  assert (Hc : convert_seed_model 11%positive seed_objects
               = (Returned 8589934597%Z, seed_objects)) by reflexivity.
  split; [exact Hctor | split; [exact Hc |]].
  destruct (create_pcg32_converted convert_seed_model pcg32_model pcg32_init
              11%positive 7 seed_objects seed_objects 8589934597 Hctor Hc)
    as [Hcreate Hheap].
  split; [exact Hcreate | exact (Hheap eq_refl)].
Defined.

(** C7: when the conversion of the seed throws, [create_pcg32] throws
    the same exception and leaves the heap the conversion left; the
    constructor is not run, whatever it would do, and no handle is
    returned. *)
Theorem create_pcg32_propagates {pcg32_t : Type}
    (convert_seed : SEXP → M Z) (pcg32 : Z → Z → M pcg32_t)
    (seed : SEXP) (stream : Z) (h h' : heap) (e : exception) :
  convert_seed seed h = (Thrown e, h') →
  create_pcg32 convert_seed pcg32 seed stream h = (Thrown e, h') ∧
  ∀ g : pcg32_t,
    (create_pcg32 convert_seed pcg32 seed stream h).1 ≠ Returned g.
Proof.
  intros Hconv.
  assert (Hthrown : create_pcg32 convert_seed pcg32 seed stream h
                    = (Thrown e, h')).
  { unfold create_pcg32.
    exact (bind_thrown (convert_seed seed) (λ s, pcg32 s stream) h e h'
             Hconv). }
  split; [exact Hthrown |].
  intros g. rewrite Hthrown. discriminate.
Qed.

(** A list is not a numeric seed. *)
Lemma create_pcg32_propagates_sample :
  convert_seed_model seeds_ptr heap_chains
    = (Thrown (SeedConversionError "seed is not numeric"), heap_chains) ∧
  create_pcg32 convert_seed_model pcg32_model seeds_ptr 7 heap_chains
    = (Thrown (SeedConversionError "seed is not numeric"), heap_chains).
Proof.
  assert (Hc : convert_seed_model seeds_ptr heap_chains
               = (Thrown (SeedConversionError "seed is not numeric"),
                  heap_chains)) by reflexivity.
  split; [exact Hc |].
  exact (proj1 (create_pcg32_propagates convert_seed_model pcg32_model
                  seeds_ptr 7 heap_chains heap_chains _ Hc)).
Defined.

(** * Further properties *)

(** ** Strings as lists of characters *)

Lemma list_ascii_of_string_app (a b : string) :
  Strings.String.list_ascii_of_string (a +:+ b)
  = Strings.String.list_ascii_of_string a ++ Strings.String.list_ascii_of_string b.
Proof.
  induction a as [| c a IH]; simpl; [reflexivity | now rewrite IH].
Qed.

Lemma list_ascii_of_string_inj (a b : string) :
  Strings.String.list_ascii_of_string a = Strings.String.list_ascii_of_string b → a = b.
Proof.
  intros Hab.
  rewrite <- (Strings.String.string_of_list_ascii_of_string a),
          <- (Strings.String.string_of_list_ascii_of_string b).
  now rewrite Hab.
Qed.

Lemma append_inv_tail (a b s : string) : a +:+ s = b +:+ s → a = b.
Proof.
  intros Heq. apply list_ascii_of_string_inj.
  apply (f_equal Strings.String.list_ascii_of_string) in Heq.
  rewrite !list_ascii_of_string_app in Heq.
  now apply app_inv_tail in Heq.
Qed.

(** The tails of the two messages differ 21 characters from the end
    ("ds should be the same" against "ms should be the same"), so no
    choice of what comes before makes them meet. *)
Lemma tails_differ (a b : string) :
  a +:+ " and seeds should be the same"
  ≠ b +:+ " and streams should be the same".
Proof.
  intros Heq. apply (f_equal Strings.String.list_ascii_of_string) in Heq.
  rewrite !list_ascii_of_string_app in Heq.
  set (s1 := Strings.String.list_ascii_of_string " and seeds should be the same") in Heq.
  set (s2 := Strings.String.list_ascii_of_string " and streams should be the same") in Heq.
  rewrite <- (take_drop 8 s1), <- (take_drop 10 s2), !app_assoc in Heq.
  apply app_inj_2 in Heq as [_ Htail]; [| reflexivity].
  vm_compute in Htail. discriminate Htail.
Qed.

Lemma messages_differ (a b : string) : seeds_message a ≠ streams_message b.
Proof.
  unfold seeds_message, streams_message. intros Heq.
  simpl in Heq. injection Heq as Heq. now apply tails_differ in Heq.
Qed.

(** ** [check_pcg_vectors] on well-formed vectors *)

Lemma check_pcg_vectors_lengths h seeds streams N msg ss ts :
  Rcpp.holds_List h seeds ss →
  Rcpp.holds_IntegerVector h streams ts →
  check_pcg_vectors seeds streams N msg h =
  if (Z.of_nat (length ss) =? N)%Z then
    if (Z.of_nat (length ts) =? N)%Z then (Returned tt, h)
    else (Thrown (runtime_error (streams_message msg)), h)
  else (Thrown (runtime_error (seeds_message msg)), h).
Proof.
  intros Hseeds Hstreams. rewrite check_pcg_vectors_cases.
  now rewrite (size_List _ _ _ Hseeds), (size_IntegerVector _ _ _ Hstreams).
Qed.

Lemma holds_List_heap_of seeds streams :
  (Z.of_nat (length seeds) ≤ R_XLEN_T_MAX)%Z →
  Rcpp.holds_List (heap_of seeds streams) seeds_ptr seeds.
Proof. intros Hmax. split; [reflexivity | exact Hmax]. Qed.

Lemma holds_IntegerVector_heap_of seeds streams :
  (Z.of_nat (length streams) ≤ R_XLEN_T_MAX)%Z →
  Rcpp.holds_IntegerVector (heap_of seeds streams) streams_ptr streams.
Proof. intros Hmax. split; [reflexivity | exact Hmax]. Qed.

(** X1: on a list of seeds and a vector of streams, [check_pcg_vectors]
    returns normally exactly when both have [N] elements: a normal
    return is a proof of the two equalities, not only a consequence of
    them. *)
Theorem check_pcg_vectors_returns_iff h seeds streams N msg ss ts :
  Rcpp.holds_List h seeds ss →
  Rcpp.holds_IntegerVector h streams ts →
  (check_pcg_vectors seeds streams N msg h).1 = Returned tt ↔
  Z.of_nat (length ss) = N ∧ Z.of_nat (length ts) = N.
Proof.
  intros Hseeds Hstreams.
  rewrite (check_pcg_vectors_lengths _ _ _ _ _ _ _ Hseeds Hstreams).
  destruct (Z.eqb_spec (Z.of_nat (length ss)) N) as [Hss | Hss];
    [destruct (Z.eqb_spec (Z.of_nat (length ts)) N) as [Hts | Hts] |];
    simpl; split; try discriminate; try tauto.
Qed.

(** Two seeds and two streams for [N = 2]. *)
Lemma check_pcg_vectors_returns_iff_pair :
  Rcpp.holds_List heap_pair seeds_ptr [10; 11]%positive ∧
  Rcpp.holds_IntegerVector heap_pair streams_ptr [0; 1]%Z ∧
  ((check_pcg_vectors seeds_ptr streams_ptr 2 "cells" heap_pair).1
     = Returned tt ↔
   Z.of_nat (length [10; 11]%positive) = 2%Z ∧
   Z.of_nat (length [0; 1]%Z) = 2%Z).
Proof.
  assert (Hs : Rcpp.holds_List heap_pair seeds_ptr [10; 11]%positive).
  { apply holds_List_heap_of. unfold R_XLEN_T_MAX; simpl; lia. }
  assert (Ht : Rcpp.holds_IntegerVector heap_pair streams_ptr [0; 1]%Z).
  { apply holds_IntegerVector_heap_of. unfold R_XLEN_T_MAX; simpl; lia. }
  split; [exact Hs | split; [exact Ht |]].
  exact (check_pcg_vectors_returns_iff
           heap_pair seeds_ptr streams_ptr 2 "cells" _ _ Hs Ht).
Defined.

(** X2: the error on the seeds is raised for no other reason than the
    seeds: when [check_pcg_vectors] throws the seeds message, the list of
    seeds does not have [N] elements, whatever the streams are. *)
Theorem check_pcg_vectors_seeds_error_inv h seeds streams N msg ss :
  Rcpp.holds_List h seeds ss →
  (check_pcg_vectors seeds streams N msg h).1
    = Thrown (runtime_error (seeds_message msg)) →
  Z.of_nat (length ss) ≠ N.
Proof.
  intros Hseeds Hthrown Hss. rewrite check_pcg_vectors_cases in Hthrown.
  rewrite (size_List _ _ _ Hseeds), Hss, Z.eqb_refl in Hthrown.
  destruct (static_cast_size_t (Rf_xlength h streams) =? N)%Z;
    simpl in Hthrown; [discriminate |].
  apply (messages_differ msg msg). congruence.
Qed.

(** Two seeds for [N = 3]. *)
Lemma check_pcg_vectors_seeds_error_inv_chains :
  Rcpp.holds_List heap_chains seeds_ptr [10; 11]%positive ∧
  (check_pcg_vectors seeds_ptr streams_ptr 3 "chains" heap_chains).1
    = Thrown (runtime_error (seeds_message "chains")) ∧
  Z.of_nat (length [10; 11]%positive) ≠ 3%Z.
Proof.
  assert (Hs : Rcpp.holds_List heap_chains seeds_ptr [10; 11]%positive).
  { apply holds_List_heap_of. unfold R_XLEN_T_MAX; simpl; lia. }
  assert (Hthrown :
    (check_pcg_vectors seeds_ptr streams_ptr 3 "chains" heap_chains).1
    = Thrown (runtime_error (seeds_message "chains"))) by reflexivity.
  split; [exact Hs | split; [exact Hthrown |]].
  exact (check_pcg_vectors_seeds_error_inv
           heap_chains seeds_ptr streams_ptr 3 "chains" _ Hs Hthrown).
Defined.

(** X3: when [check_pcg_vectors] throws the streams message, the list of
    seeds has [N] elements and the vector of streams has not: a caller
    that sees this error knows the seeds passed. *)
Theorem check_pcg_vectors_streams_error_inv h seeds streams N msg ss ts :
  Rcpp.holds_List h seeds ss →
  Rcpp.holds_IntegerVector h streams ts →
  (check_pcg_vectors seeds streams N msg h).1
    = Thrown (runtime_error (streams_message msg)) →
  Z.of_nat (length ss) = N ∧ Z.of_nat (length ts) ≠ N.
Proof.
  intros Hseeds Hstreams.
  rewrite (check_pcg_vectors_lengths _ _ _ _ _ _ _ Hseeds Hstreams).
  destruct (Z.eqb_spec (Z.of_nat (length ss)) N) as [Hss | Hss];
    [destruct (Z.eqb_spec (Z.of_nat (length ts)) N) as [Hts | Hts] |];
    simpl; intros Hthrown.
  - discriminate.
  - now split.
  - exfalso. apply (messages_differ msg msg). congruence.
Qed.

(** Three seeds and two streams for [N = 3]. *)
Lemma check_pcg_vectors_streams_error_inv_workers :
  Rcpp.holds_List heap_workers seeds_ptr [10; 11; 12]%positive ∧
  Rcpp.holds_IntegerVector heap_workers streams_ptr [0; 1]%Z ∧
  (check_pcg_vectors seeds_ptr streams_ptr 3 "workers" heap_workers).1
    = Thrown (runtime_error (streams_message "workers")) ∧
  Z.of_nat (length [10; 11; 12]%positive) = 3%Z ∧
  Z.of_nat (length [0; 1]%Z) ≠ 3%Z.
Proof.
  assert (Hs : Rcpp.holds_List heap_workers seeds_ptr [10; 11; 12]%positive).
  { apply holds_List_heap_of. unfold R_XLEN_T_MAX; simpl; lia. }
  assert (Ht : Rcpp.holds_IntegerVector heap_workers streams_ptr [0; 1]%Z).
  { apply holds_IntegerVector_heap_of. unfold R_XLEN_T_MAX; simpl; lia. }
  assert (Hthrown :
    (check_pcg_vectors seeds_ptr streams_ptr 3 "workers" heap_workers).1
    = Thrown (runtime_error (streams_message "workers"))) by reflexivity.
  split; [exact Hs | split; [exact Ht | split; [exact Hthrown |]]].
  exact (check_pcg_vectors_streams_error_inv
           heap_workers seeds_ptr streams_ptr 3 "workers" _ _ Hs Ht Hthrown).
Defined.

(** X4: the two messages never coincide, whatever the labels: the text
    of the error alone tells whether the seeds or the streams were at
    fault, even for a label that itself contains the words of the other
    message. *)
Theorem check_pcg_vectors_messages_distinct (msg msg' : string) :
  seeds_message msg ≠ streams_message msg'.
Proof. apply messages_differ. Qed.

(** X5: different labels give different messages, for the seeds and for
    the streams: the label can be read back from the error. *)
Theorem check_pcg_vectors_messages_label (msg msg' : string) :
  msg ≠ msg' →
  seeds_message msg ≠ seeds_message msg' ∧
  streams_message msg ≠ streams_message msg'.
Proof.
  intros Hne. unfold seeds_message, streams_message.
  split; intros Heq; simpl in Heq; injection Heq as Heq;
    exact (Hne (append_inv_tail msg msg' _ Heq)).
Qed.

(** The labels "cells" and "genes". *)
Lemma check_pcg_vectors_messages_label_sample :
  "cells" ≠ "genes" ∧
  seeds_message "cells" ≠ seeds_message "genes" ∧
  streams_message "cells" ≠ streams_message "genes".
Proof.
  assert (Hne : "cells" ≠ "genes") by discriminate.
  split; [exact Hne |].
  exact (check_pcg_vectors_messages_label "cells" "genes" Hne).
Defined.

(** X6: after a normal return of [check_pcg_vectors] every index below
    [N] is within both the list of seeds and the vector of streams, so a
    loop over [0 .. N-1] that pairs the i-th seed with the i-th stream
    reads no element out of bounds. *)
Theorem check_pcg_vectors_indices h seeds streams N msg ss ts (i : Z) :
  Rcpp.holds_List h seeds ss →
  Rcpp.holds_IntegerVector h streams ts →
  (check_pcg_vectors seeds streams N msg h).1 = Returned tt →
  (0 ≤ i < N)%Z →
  is_Some (ss !! Z.to_nat i) ∧ is_Some (ts !! Z.to_nat i).
Proof.
  intros Hseeds Hstreams.
  rewrite (check_pcg_vectors_lengths _ _ _ _ _ _ _ Hseeds Hstreams).
  destruct (Z.eqb_spec (Z.of_nat (length ss)) N) as [Hss | Hss];
    [destruct (Z.eqb_spec (Z.of_nat (length ts)) N) as [Hts | Hts] |];
    simpl; intros Hret Hi; try discriminate.
  split; apply lookup_lt_is_Some_2; lia.
Qed.

(** The last index of two seeds and two streams. *)
Lemma check_pcg_vectors_indices_pair :
  Rcpp.holds_List heap_pair seeds_ptr [10; 11]%positive ∧
  Rcpp.holds_IntegerVector heap_pair streams_ptr [0; 1]%Z ∧
  (check_pcg_vectors seeds_ptr streams_ptr 2 "cells" heap_pair).1
    = Returned tt ∧
  (0 ≤ 1 < 2)%Z ∧
  is_Some ([10; 11]%positive !! Z.to_nat 1) ∧
  is_Some ([0; 1]%Z !! Z.to_nat 1).
Proof.
  assert (Hs : Rcpp.holds_List heap_pair seeds_ptr [10; 11]%positive).
  { apply holds_List_heap_of. unfold R_XLEN_T_MAX; simpl; lia. }
  assert (Ht : Rcpp.holds_IntegerVector heap_pair streams_ptr [0; 1]%Z).
  { apply holds_IntegerVector_heap_of. unfold R_XLEN_T_MAX; simpl; lia. }
  assert (Hret :
    (check_pcg_vectors seeds_ptr streams_ptr 2 "cells" heap_pair).1
    = Returned tt) by reflexivity.
  assert (Hi : (0 ≤ 1 < 2)%Z) by lia.
  split; [exact Hs | split; [exact Ht | split; [exact Hret |]]].
  split; [exact Hi |].
  exact (check_pcg_vectors_indices
           heap_pair seeds_ptr streams_ptr 2 "cells" _ _ 1 Hs Ht Hret Hi).
Defined.

(** X7: what follows a call of [check_pcg_vectors] runs exactly when
    both lengths are [N], and then in the heap as it was before the
    check.  When a length is off, the rest is not run at all: whatever it
    is, the result is the error of the check and the heap is
    untouched. *)
Theorem check_pcg_vectors_guards {B : Type} (k : M B)
    h seeds streams N msg ss ts :
  Rcpp.holds_List h seeds ss →
  Rcpp.holds_IntegerVector h streams ts →
  (Z.of_nat (length ss) = N ∧ Z.of_nat (length ts) = N →
   (check_pcg_vectors seeds streams N msg;; k) h = k h) ∧
  (¬ (Z.of_nat (length ss) = N ∧ Z.of_nat (length ts) = N) →
   ∃ what : string,
     (what = seeds_message msg ∨ what = streams_message msg) ∧
     (check_pcg_vectors seeds streams N msg;; k) h
     = (Thrown (runtime_error what), h)).
Proof.
  intros Hseeds Hstreams.
  pose proof (check_pcg_vectors_lengths h seeds streams N msg ss ts
                Hseeds Hstreams) as Hcheck.
  destruct (Z.eqb_spec (Z.of_nat (length ss)) N) as [Hss | Hss];
    [destruct (Z.eqb_spec (Z.of_nat (length ts)) N) as [Hts | Hts] |].
  - split; [| tauto]. intros _.
    exact (bind_returned _ (λ _, k) h tt h Hcheck).
  - split; [tauto |]. intros _. exists (streams_message msg).
    split; [now right |].
    exact (bind_thrown _ (λ _, k) h _ h Hcheck).
  - split; [tauto |]. intros _. exists (seeds_message msg).
    split; [now left |].
    exact (bind_thrown _ (λ _, k) h _ h Hcheck).
Qed.

(** A generator is built after the check on two seeds and two streams. *)
Lemma check_pcg_vectors_guards_pair :
  Rcpp.holds_List heap_pair seeds_ptr [10; 11]%positive ∧
  Rcpp.holds_IntegerVector heap_pair streams_ptr [0; 1]%Z ∧
  (check_pcg_vectors seeds_ptr streams_ptr 2 "cells";;
   create_pcg32 convert_seed_model pcg32_model 11%positive 7) heap_pair
  = (Returned (pcg32_init 8589934597 7), heap_pair).
Proof.
  assert (Hs : Rcpp.holds_List heap_pair seeds_ptr [10; 11]%positive).
  { apply holds_List_heap_of. unfold R_XLEN_T_MAX; simpl; lia. }
  assert (Ht : Rcpp.holds_IntegerVector heap_pair streams_ptr [0; 1]%Z).
  { apply holds_IntegerVector_heap_of. unfold R_XLEN_T_MAX; simpl; lia. }
  split; [exact Hs | split; [exact Ht |]].
  exact (proj1 (check_pcg_vectors_guards
                  (create_pcg32 convert_seed_model pcg32_model 11%positive 7)
                  heap_pair seeds_ptr streams_ptr 2 "cells" _ _ Hs Ht)
               (conj eq_refl eq_refl)).
Defined.

(** ** [create_pcg32], read backwards *)

(** X8: a handle returned by [create_pcg32] is the one the engine's
    constructor returned on the converted seed and the given stream:
    there is no return without a conversion that succeeded. *)
Theorem create_pcg32_returned_inv {pcg32_t : Type}
    (convert_seed : SEXP → M Z) (pcg32 : Z → Z → M pcg32_t)
    (seed : SEXP) (stream : Z) (h h2 : heap) (g : pcg32_t) :
  create_pcg32 convert_seed pcg32 seed stream h = (Returned g, h2) →
  ∃ (s : Z) (h1 : heap),
    convert_seed seed h = (Returned s, h1) ∧
    pcg32 s stream h1 = (Returned g, h2).
Proof.
  unfold create_pcg32, mbind, M_bind, bind.
  destruct (convert_seed seed h) as [[s | e] h1]; intros Hcreate.
  - now exists s, h1.
  - discriminate.
Qed.

(** The handle built from the seed words 2 and 5. *)
Lemma create_pcg32_returned_inv_sample :
  create_pcg32 convert_seed_model pcg32_model 11%positive 7 seed_objects
    = (Returned (pcg32_init 8589934597 7), seed_objects) ∧
  ∃ (s : Z) (h1 : heap),
    convert_seed_model 11%positive seed_objects = (Returned s, h1) ∧
    pcg32_model s 7 h1 = (Returned (pcg32_init 8589934597 7), seed_objects).
Proof.
  assert (Hc : create_pcg32 convert_seed_model pcg32_model 11%positive 7
                 seed_objects
               = (Returned (pcg32_init 8589934597 7), seed_objects))
    by reflexivity.
  split; [exact Hc |].
  exact (create_pcg32_returned_inv convert_seed_model pcg32_model
           11%positive 7 seed_objects seed_objects _ Hc).
Defined.

(** X9: [create_pcg32] raises no exception of its own: one that leaves
    it was thrown by the seed converter, or by the engine's constructor
    after the conversion had succeeded. *)
Theorem create_pcg32_thrown_inv {pcg32_t : Type}
    (convert_seed : SEXP → M Z) (pcg32 : Z → Z → M pcg32_t)
    (seed : SEXP) (stream : Z) (h h2 : heap) (e : exception) :
  create_pcg32 convert_seed pcg32 seed stream h = (Thrown e, h2) →
  convert_seed seed h = (Thrown e, h2) ∨
  ∃ (s : Z) (h1 : heap),
    convert_seed seed h = (Returned s, h1) ∧
    pcg32 s stream h1 = (Thrown e, h2).
Proof.
  unfold create_pcg32, mbind, M_bind, bind.
  destruct (convert_seed seed h) as [[s | e'] h1]; intros Hcreate.
  - right. now exists s, h1.
  - left. injection Hcreate as -> ->. reflexivity.
Qed.

(** A list passed as a seed. *)
Lemma create_pcg32_thrown_inv_sample :
  create_pcg32 convert_seed_model pcg32_model seeds_ptr 7 heap_chains
    = (Thrown (SeedConversionError "seed is not numeric"), heap_chains) ∧
  (convert_seed_model seeds_ptr heap_chains
     = (Thrown (SeedConversionError "seed is not numeric"), heap_chains) ∨
   ∃ (s : Z) (h1 : heap),
     convert_seed_model seeds_ptr heap_chains = (Returned s, h1) ∧
     pcg32_model s 7 h1
     = (Thrown (SeedConversionError "seed is not numeric"), heap_chains)).
Proof.
  assert (Hc : create_pcg32 convert_seed_model pcg32_model seeds_ptr 7
                 heap_chains
               = (Thrown (SeedConversionError "seed is not numeric"),
                  heap_chains)) by reflexivity.
  split; [exact Hc |].
  exact (create_pcg32_thrown_inv convert_seed_model pcg32_model
           seeds_ptr 7 heap_chains heap_chains _ Hc).
Defined.

(** The two instances leave the heap as it is. *)
Lemma convert_seed_model_heap seed h : (convert_seed_model seed h).2 = h.
Proof.
  unfold convert_seed_model.
  destruct (h !! seed) as [[words | elts] |]; [| reflexivity ..].
  now destruct (_ <? _)%Z.
Qed.

Lemma pcg32_model_heap s stream h : (pcg32_model s stream h).2 = h.
Proof. reflexivity. Qed.

(** X10: [create_pcg32] touches the heap only through the converter and
    the constructor: when neither changes the heap, the call leaves it
    as it was, whether it returns or throws. *)
Theorem create_pcg32_frame {pcg32_t : Type}
    (convert_seed : SEXP → M Z) (pcg32 : Z → Z → M pcg32_t)
    (seed : SEXP) (stream : Z) (h : heap) :
  (∀ sd h0, (convert_seed sd h0).2 = h0) →
  (∀ s st h0, (pcg32 s st h0).2 = h0) →
  (create_pcg32 convert_seed pcg32 seed stream h).2 = h.
Proof.
  intros Hconv Hctor. unfold create_pcg32, mbind, M_bind, bind.
  specialize (Hconv seed h).
  destruct (convert_seed seed h) as [[s | e] h1]; simpl in Hconv; subst h1.
  - apply Hctor.
  - reflexivity.
Qed.

(** The two instances on the sample seed objects. *)
Lemma create_pcg32_frame_sample :
  (∀ sd h0, (convert_seed_model sd h0).2 = h0) ∧
  (∀ s st h0, (pcg32_model s st h0).2 = h0) ∧
  (create_pcg32 convert_seed_model pcg32_model 11%positive 7
     seed_objects).2 = seed_objects.
Proof.
  split; [exact convert_seed_model_heap |].
  split; [exact pcg32_model_heap |].
  exact (create_pcg32_frame convert_seed_model pcg32_model 11%positive 7
           seed_objects convert_seed_model_heap pcg32_model_heap).
Defined.
